(** * CloudWatch RUM metrics destination: the resource adapter

    A shallow embedding of [internal/service/rum/metrics_destination.go]:
    the put / read / delete lifecycle functions of the
    [aws_rum_metrics_destination] resource and the finder
    [FindMetricsDestinationByName], followed by the properties of the
    adapter that its specification states.

    The Go code works on two mutable things: the resource data [d] that
    the plugin SDK hands to every lifecycle function, and the remote
    service behind [conn].  Both are threaded explicitly through a small
    state monad; a nil dereference is an outcome of its own. *)

From Stdlib Require Import ZArith Lia.
From stdpp Require Import base option list strings gmap.

Local Open Scope string_scope.
Local Open Scope list_scope.
Local Open Scope Z_scope.

(** ** Requests and responses of the service client *)

(** [cloudwatchrum.ListRumMetricsDestinationsInput]; the finder sets the
    monitor name only. *)
Record ListRumMetricsDestinationsInput := {
  list_AppMonitorName : option string;
}.

(** [cloudwatchrum.PutRumMetricsDestinationInput]: every field is a
    [*string], nil when the field is left out of the request. *)
Record PutRumMetricsDestinationInput := {
  put_AppMonitorName : option string;
  put_Destination : option string;
  put_DestinationArn : option string;
  put_IamRoleArn : option string;
}.

(** [cloudwatchrum.DeleteRumMetricsDestinationInput]. *)
Record DeleteRumMetricsDestinationInput := {
  del_AppMonitorName : option string;
  del_Destination : option string;
  del_DestinationArn : option string;
}.

(** [cloudwatchrum.MetricDestinationSummary]. *)
Record MetricDestinationSummary := {
  Destination : option string;
  DestinationArn : option string;
  IamRoleArn : option string;
}.

(** [cloudwatchrum.ListRumMetricsDestinationsOutput]: one result page, as
    the page function reads it (the next-page token is the paginator's
    business).  The entries are pointers, so an entry can be nil. *)
Record ListRumMetricsDestinationsOutput := {
  Destinations : list (option MetricDestinationSummary);
}.

(** ** Errors *)

(** What a call of the service client can fail with: an [awserr.Error],
    which has a code, or any other Go error. *)
Inductive sdkError : Type :=
  | AwsError (Code Message : string)
  | PlainError (Message : string).

(** The error values the finder returns: the client's error as it is,
    [&retry.NotFoundError{LastError: err, LastRequest: input}], and the
    values built by [tfresource.NewEmptyResultError(input)] and
    [tfresource.NewTooManyResultsError(count, input)].  The last two
    constructors stand for the result of those two calls. *)
Inductive error : Type :=
  | FromClient (e : sdkError)
  | NotFoundError (LastError : option sdkError)
                  (LastRequest : ListRumMetricsDestinationsInput)
  | EmptyResultError (LastRequest : ListRumMetricsDestinationsInput)
  | TooManyResultsError (Count : Z)
                        (LastRequest : ListRumMetricsDestinationsInput).

(** [cloudwatchrum.ErrCodeResourceNotFoundException]. *)
Definition ErrCodeResourceNotFoundException : string :=
  "ResourceNotFoundException".

(** [tfawserr.ErrCodeEquals(err, code)]: [err] is an [awserr.Error] whose
    code is [code]; false on a nil error. *)
Definition ErrCodeEquals (err : option sdkError) (code : string) : bool :=
  match err with
  | Some (AwsError c _) => bool_decide (c = code)
  | _ => false
  end.

(** Modelled from the spec: the classification behind
    [tfresource.NotFound], that is whether a non-nil error converts to a
    [*retry.NotFoundError] under [errors.As].  The error types of package
    [tfresource] decide it, and that package is not among the sources, so
    the classification is an interface with two laws: a
    [*retry.NotFoundError] is accepted, being of the type asked for, and
    so is the empty-result error, since the specification names the
    zero-entries outcome [NotFoundError], the one Read reacts to by
    dropping the object.  How the too-many-results error and the client's
    errors are classified is left open. *)
Class Tfresource := {
  AsNotFoundError : error -> bool;
  AsNotFoundError_retry :
    forall e r, AsNotFoundError (NotFoundError e r) = true;
  AsNotFoundError_empty :
    forall r, AsNotFoundError (EmptyResultError r) = true;
}.

(** [tfresource.NotFound(err)]: [errors.As] is false on a nil error. *)
Definition NotFound `{Tfresource} (err : option error) : bool :=
  match err with
  | None => false
  | Some e => AsNotFoundError e
  end.

(** ** The remote service *)

(** What the remote service answers.  A listing answers with the pages it
    delivers, in order, and with the error that ends the listing, if one
    does; a page pointer can be nil.  A lifecycle function calls each
    operation at most once, so that the answers of a service with a state
    of its own are covered: the three answers are independent of each
    other. *)
Record CloudWatchRUM := {
  PutRumMetricsDestination :
    PutRumMetricsDestinationInput -> option sdkError;
  DeleteRumMetricsDestination :
    DeleteRumMetricsDestinationInput -> option sdkError;
  ListRumMetricsDestinations :
    ListRumMetricsDestinationsInput ->
    list (option ListRumMetricsDestinationsOutput) * option sdkError;
}.

(** A request that was sent to the service. *)
Inductive Request : Type :=
  | SentPut (input : PutRumMetricsDestinationInput)
  | SentDelete (input : DeleteRumMetricsDestinationInput)
  | SentList (input : ListRumMetricsDestinationsInput).

(** ** Resource data *)

(** [schema.ResourceData] as the adapter uses it: the identifier, the
    new-resource mark and the attributes, which are all of type string in
    this resource's schema. *)
Record ResourceData := {
  rd_Id : string;
  rd_IsNewResource : bool;
  rd_attrs : gmap string string;
}.

(** The state an operation runs in: the resource data it was given and
    the requests sent so far, oldest first. *)
Record State := {
  data : ResourceData;
  sent : list Request;
}.

(** ** The monad of the lifecycle functions *)

Inductive outcome (A : Type) : Type :=
  | Done (a : A) (s : State)
  | Panic.
Arguments Done {A} a s.
Arguments Panic {A}.

Definition M (A : Type) : Type := State -> outcome A.

Global Instance M_ret : MRet M := fun A (a : A) s => Done a s.

Global Instance M_bind : MBind M := fun A B (k : A -> M B) (m : M A) s =>
  match m s with
  | Done a s' => k a s'
  | Panic => Panic
  end.

Definition panic {A} : M A := fun _ => Panic.

Definition modify_data (f : ResourceData -> ResourceData) : M unit :=
  fun s => Done tt {| data := f (data s); sent := sent s |}.

(** The state once one more request has gone out. *)
Definition sending (r : Request) (s : State) : State :=
  {| data := data s; sent := sent s ++ [r] |}.

Definition send (r : Request) : M unit := fun s => Done tt (sending r s).

(** Reading and writing the resource data: an attribute that is not set
    reads as the zero value of its type, the empty string. *)
Definition attr (d : ResourceData) (key : string) : string :=
  default "" (rd_attrs d !! key).

Definition setId (v : string) (d : ResourceData) : ResourceData :=
  {| rd_Id := v;
     rd_IsNewResource := rd_IsNewResource d;
     rd_attrs := rd_attrs d |}.

Definition setAttr (key value : string) (d : ResourceData) : ResourceData :=
  {| rd_Id := rd_Id d;
     rd_IsNewResource := rd_IsNewResource d;
     rd_attrs := <[key := value]> (rd_attrs d) |}.

(** [d.Id()] and [d.IsNewResource()]. *)
Definition d_Id : M string := fun s => Done (rd_Id (data s)) s.
Definition d_IsNewResource : M bool :=
  fun s => Done (rd_IsNewResource (data s)) s.

(** [d.Get(key).(string)]. *)
Definition d_Get (key : string) : M string :=
  fun s => Done (attr (data s) key) s.

(** [d.GetOk(key)]: the value, and whether it is set to something other
    than the zero value. *)
Definition d_GetOk (key : string) : M (string * bool) :=
  fun s => let v := attr (data s) key in
           Done (v, negb (bool_decide (v = ""))) s.

(** [d.SetId(v)]. *)
Definition d_SetId (v : string) : M unit := modify_data (setId v).

(** [d.Set(key, value)] with a [string] or [*string] value; a nil pointer
    writes the zero value. *)
Definition d_Set (key : string) (value : option string) : M unit :=
  modify_data (setAttr key (default "" value)).

(** ** Attribute names *)

(** Modelled from the spec: the attribute-name constants
    [names.AttrDestination], [names.AttrDestinationARN] and
    [names.AttrIAMRoleARN] of package [names], which is not among the
    sources; they name the configuration fields [destination],
    [destinationArn] and [iamRoleArn]. *)
Definition AttrDestination : string := "destination".
Definition AttrDestinationARN : string := "destination_arn".
Definition AttrIAMRoleARN : string := "iam_role_arn".

(** ** Diagnostics *)

Inductive Severity : Type := Error | Warning.

Inductive fmtArg : Type :=
  | ArgString (s : string)
  | ArgError (e : error).

(** A [diag.Diagnostic] built by [sdkdiag.AppendErrorf]: the format and
    its arguments are kept as they were passed, not rendered. *)
Record Diagnostic := {
  diag_Severity : Severity;
  diag_Format : string;
  diag_Args : list fmtArg;
}.

Definition Diagnostics : Type := list Diagnostic.

(** [sdkdiag.AppendErrorf(diags, format, a...)]: one more diagnostic, of
    severity error. *)
Definition AppendErrorf (diags : Diagnostics) (format : string)
    (a : list fmtArg) : Diagnostics :=
  diags ++ [ {| diag_Severity := Error; diag_Format := format; diag_Args := a |} ].

(** [diags.HasError()]. *)
Definition HasError (diags : Diagnostics) : bool :=
  existsb (fun dg => match diag_Severity dg with Error => true | Warning => false end)
          diags.

(** ** Listing, page by page *)

(** The paginator of the service client,
    [ListRumMetricsDestinationsPagesWithContext]: [fn] is called on each
    delivered page together with the last-page flag, until it answers
    false or the pages run out; the error that ended the listing is the
    result, and there is none when [fn] stopped the listing itself. *)
Fixpoint eachPage {S : Type}
    (fn : S -> option ListRumMetricsDestinationsOutput -> bool -> S * bool)
    (acc : S)
    (pages : list (option ListRumMetricsDestinationsOutput * bool))
    (final : option sdkError) : S * option sdkError :=
  match pages with
  | [] => (acc, final)
  | (page, lastPage) :: rest =>
      let '(acc', continue) := fn acc page lastPage in
      if continue then eachPage fn acc' rest final else (acc', None)
  end.

(** The flag the paginator passes: a page is the last one when no page
    follows it and no error ends the listing after it. *)
Fixpoint withLastPage (pages : list (option ListRumMetricsDestinationsOutput))
    (final : option sdkError)
    : list (option ListRumMetricsDestinationsOutput * bool) :=
  match pages with
  | [] => []
  | [page] => [(page, bool_decide (final = None))]
  | page :: rest => (page, false) :: withLastPage rest final
  end.

Definition ListRumMetricsDestinationsPages {S : Type} (conn : CloudWatchRUM)
    (input : ListRumMetricsDestinationsInput)
    (fn : S -> option ListRumMetricsDestinationsOutput -> bool -> S * bool)
    (acc : S) : M (S * option sdkError) :=
  send (SentList input) ;;
  let '(pages, final) := ListRumMetricsDestinations conn input in
  mret (eachPage fn acc (withLastPage pages final) final).

(** The range loop of the page function: the non-nil entries of a page
    are appended to [output], in order. *)
Fixpoint appendDestinations (output : list MetricDestinationSummary)
    (destinations : list (option MetricDestinationSummary))
    : list MetricDestinationSummary :=
  match destinations with
  | [] => output
  | Some v :: rest => appendDestinations (output ++ [v]) rest
  | None :: rest => appendDestinations output rest
  end.

(** The page function the finder passes to the paginator; [output] is
    the slice it closes over. *)
Definition collectPage (output : list MetricDestinationSummary)
    (page : option ListRumMetricsDestinationsOutput) (lastPage : bool)
    : list MetricDestinationSummary * bool :=
  match page with
  | None => (output, negb lastPage)
  | Some p => (appendDestinations output (Destinations p), negb lastPage)
  end.

(** ** The finder *)

Definition FindMetricsDestinationByName (conn : CloudWatchRUM) (name : string)
    : M (option MetricDestinationSummary * option error) :=
  let input := {| list_AppMonitorName := Some name |} in
  '(output, err) ← ListRumMetricsDestinationsPages conn input collectPage [];
  if ErrCodeEquals err ErrCodeResourceNotFoundException then
    mret (None, Some (NotFoundError err input))
  else
    match err with
    | Some e => mret (None, Some (FromClient e))
    | None =>
        if bool_decide (Z.of_nat (length output) = 0) then
          mret (None, Some (EmptyResultError input))
        else
          let count := Z.of_nat (length output) in
          if bool_decide (count > 1) then
            mret (None, Some (TooManyResultsError count input))
          else
            match output !! 0%nat with
            | Some v => mret (Some v, None)
            | None => panic
            end
    end.

(** ** The lifecycle functions *)

(** The two calls of the service client that are not paginated: the
    request is sent, the service's answer is the result. *)
Definition PutRumMetricsDestinationWithContext (conn : CloudWatchRUM)
    (input : PutRumMetricsDestinationInput) : M (option sdkError) :=
  send (SentPut input) ;; mret (PutRumMetricsDestination conn input).

Definition DeleteRumMetricsDestinationWithContext (conn : CloudWatchRUM)
    (input : DeleteRumMetricsDestinationInput) : M (option sdkError) :=
  send (SentDelete input) ;; mret (DeleteRumMetricsDestination conn input).

Section Lifecycle.
Context `{Tfresource}.

(** The calls of [log.Printf] are left out: they write to the log
    only. *)
Definition resourceMetricsDestinationRead (conn : CloudWatchRUM)
    : M Diagnostics :=
  let diags : Diagnostics := [] in
  id ← d_Id;
  '(dest, err) ← FindMetricsDestinationByName conn id;
  isNew ← d_IsNewResource;
  if negb isNew && NotFound err then
    d_SetId "" ;;
    mret diags
  else
    match err with
    | Some e =>
        id ← d_Id;
        mret (AppendErrorf diags
                "reading CloudWatch RUM Metrics Destination (%s): %s"
                [ArgString id; ArgError e])
    | None =>
        id ← d_Id;
        d_Set "app_monitor_name" (Some id) ;;
        match dest with
        | None => panic
        | Some dest =>
            d_Set AttrDestination (Destination dest) ;;
            d_Set AttrDestinationARN (DestinationArn dest) ;;
            d_Set AttrIAMRoleARN (IamRoleArn dest) ;;
            mret diags
        end
    end.

Definition resourceMetricsDestinationPut (conn : CloudWatchRUM)
    : M Diagnostics :=
  let diags : Diagnostics := [] in
  name ← d_Get "app_monitor_name";
  destination ← d_Get AttrDestination;
  let input := {| put_AppMonitorName := Some name;
                  put_Destination := Some destination;
                  put_DestinationArn := None;
                  put_IamRoleArn := None |} in
  '(v, ok) ← d_GetOk AttrDestinationARN;
  let input := if ok : bool
               then {| put_AppMonitorName := put_AppMonitorName input;
                       put_Destination := put_Destination input;
                       put_DestinationArn := Some v;
                       put_IamRoleArn := put_IamRoleArn input |}
               else input in
  '(v, ok) ← d_GetOk AttrIAMRoleARN;
  let input := if ok : bool
               then {| put_AppMonitorName := put_AppMonitorName input;
                       put_Destination := put_Destination input;
                       put_DestinationArn := put_DestinationArn input;
                       put_IamRoleArn := Some v |}
               else input in
  err ← PutRumMetricsDestinationWithContext conn input;
  match err with
  | Some e =>
      mret (AppendErrorf diags
              "putting CloudWatch RUM Metrics Destination (%s): %s"
              [ArgString name; ArgError (FromClient e)])
  | None =>
      isNew ← d_IsNewResource;
      (if isNew : bool then d_SetId name else mret tt) ;;
      rd ← resourceMetricsDestinationRead conn;
      mret (diags ++ rd)
  end.

End Lifecycle.

Definition resourceMetricsDestinationDelete (conn : CloudWatchRUM)
    : M Diagnostics :=
  let diags : Diagnostics := [] in
  id ← d_Id;
  destination ← d_Get AttrDestination;
  let input := {| del_AppMonitorName := Some id;
                  del_Destination := Some destination;
                  del_DestinationArn := None |} in
  '(v, ok) ← d_GetOk AttrDestinationARN;
  let input := if ok : bool
               then {| del_AppMonitorName := del_AppMonitorName input;
                       del_Destination := del_Destination input;
                       del_DestinationArn := Some v |}
               else input in
  err ← DeleteRumMetricsDestinationWithContext conn input;
  if ErrCodeEquals err ErrCodeResourceNotFoundException then
    mret diags
  else
    match err with
    | Some e =>
        id ← d_Id;
        mret (AppendErrorf diags
                "deleting CloudWatch RUM Metrics Destination (%s): %s"
                [ArgString id; ArgError (FromClient e)])
    | None => mret diags
    end.

(** ** The specification's reading of a listing *)

(** The non-nil entries of one page; a nil page has none. *)
Definition pageEntries (page : option ListRumMetricsDestinationsOutput)
    : list MetricDestinationSummary :=
  match page with
  | None => []
  | Some p => omap id (Destinations p)
  end.

(** The non-nil entries of all pages: page after page, and within a page
    in the order of the page. *)
Definition allEntries (pages : list (option ListRumMetricsDestinationsOutput))
    : list MetricDestinationSummary :=
  concat (pageEntries <$> pages).

(** The policy on the accumulated sequence: none is not found, one is the
    result, more are ambiguous. *)
Definition policy (input : ListRumMetricsDestinationsInput)
    (entries : list MetricDestinationSummary)
    : option MetricDestinationSummary * option error :=
  match entries with
  | [] => (None, Some (EmptyResultError input))
  | [v] => (Some v, None)
  | _ => (None, Some (TooManyResultsError (Z.of_nat (length entries)) input))
  end.

(** What Lookup answers for a listing that delivered [pages] and ended
    with [final]. *)
Definition lookup (input : ListRumMetricsDestinationsInput)
    (pages : list (option ListRumMetricsDestinationsOutput))
    (final : option sdkError)
    : option MetricDestinationSummary * option error :=
  match final with
  | Some e =>
      if ErrCodeEquals final ErrCodeResourceNotFoundException
      then (None, Some (NotFoundError final input))
      else (None, Some (FromClient e))
  | None => policy input (allEntries pages)
  end.

(** The pages of a scan up to the first one that is flagged as the last
    page, that one included. *)
Fixpoint upToLastPage
    (events : list (option ListRumMetricsDestinationsOutput * bool))
    : list (option ListRumMetricsDestinationsOutput) :=
  match events with
  | [] => []
  | (page, lastPage) :: rest =>
      page :: (if lastPage then [] else upToLastPage rest)
  end.

(** ** The specification's reading of the requests *)

(** An optional field of a request: left out when the configured value
    is the zero value, carried as it is otherwise. *)
Definition optional (v : string) : option string :=
  if bool_decide (v = "") then None else Some v.

(** The put request of a configuration: the two required fields always,
    the two ARNs when they are configured. *)
Definition putRequest (d : ResourceData) : PutRumMetricsDestinationInput :=
  {| put_AppMonitorName := Some (attr d "app_monitor_name");
     put_Destination := Some (attr d AttrDestination);
     put_DestinationArn := optional (attr d AttrDestinationARN);
     put_IamRoleArn := optional (attr d AttrIAMRoleARN) |}.

(** The delete request: scoped to the identifier, the destination, and
    the destination ARN when it is configured. *)
Definition deleteRequest (d : ResourceData) : DeleteRumMetricsDestinationInput :=
  {| del_AppMonitorName := Some (rd_Id d);
     del_Destination := Some (attr d AttrDestination);
     del_DestinationArn := optional (attr d AttrDestinationARN) |}.

(** The resource data after a successful read-back of [dest] under the
    identifier [id]. *)
Definition populated (id : string) (dest : MetricDestinationSummary)
    (d : ResourceData) : ResourceData :=
  setAttr AttrIAMRoleARN (default "" (IamRoleArn dest))
    (setAttr AttrDestinationARN (default "" (DestinationArn dest))
       (setAttr AttrDestination (default "" (Destination dest))
          (setAttr "app_monitor_name" id d))).

(** ** Services, classifications and resource data for the examples *)

(** The classification that accepts the two not-found errors only. *)
Definition strictTfresource : Tfresource :=
  {| AsNotFoundError := fun e => match e with
                                 | NotFoundError _ _ | EmptyResultError _ => true
                                 | _ => false
                                 end;
     AsNotFoundError_retry := fun _ _ => eq_refl;
     AsNotFoundError_empty := fun _ => eq_refl |}.

(** The classification that accepts the too-many-results error as
    well: the one of the provider's [tfresource] package, whose
    too-many-results error converts to a [*retry.NotFoundError] under
    [errors.As] as its empty-result error does. *)
Definition wideTfresource : Tfresource :=
  {| AsNotFoundError := fun e => match e with
                                 | FromClient _ => false
                                 | _ => true
                                 end;
     AsNotFoundError_retry := fun _ _ => eq_refl;
     AsNotFoundError_empty := fun _ => eq_refl |}.

(** A service that answers every listing with [pages] and [final], every
    put with [putErr] and every delete with [delErr]. *)
Definition service (pages : list (option ListRumMetricsDestinationsOutput))
    (final putErr delErr : option sdkError) : CloudWatchRUM :=
  {| PutRumMetricsDestination := fun _ => putErr;
     DeleteRumMetricsDestination := fun _ => delErr;
     ListRumMetricsDestinations := fun _ => (pages, final) |}.

Definition cloudWatch : MetricDestinationSummary :=
  {| Destination := Some "CloudWatch"; DestinationArn := None; IamRoleArn := None |}.

Definition evidently : MetricDestinationSummary :=
  {| Destination := Some "Evidently";
     DestinationArn := Some "arn:aws:evidently:us-east-1:123456789012:project/p";
     IamRoleArn := Some "arn:aws:iam::123456789012:role/r" |}.

Definition pageOf (entries : list (option MetricDestinationSummary))
    : option ListRumMetricsDestinationsOutput :=
  Some {| Destinations := entries |}.

Definition notFoundException : sdkError :=
  AwsError "ResourceNotFoundException" "app monitor not found".

Definition throttlingException : sdkError :=
  AwsError "ThrottlingException" "rate exceeded".

(** The resource data of [app1] with destination [CloudWatch]: before the
    first put, and as it is tracked afterwards. *)
Definition app1Config : gmap string string :=
  <["app_monitor_name" := "app1"]> (<["destination" := "CloudWatch"]> ∅).

Definition app1New : State :=
  {| data := {| rd_Id := ""; rd_IsNewResource := true; rd_attrs := app1Config |};
     sent := [] |}.

Definition app1Tracked : State :=
  {| data := {| rd_Id := "app1"; rd_IsNewResource := false; rd_attrs := app1Config |};
     sent := [] |}.

(** The resource data of [app1] inside the first put, once the identifier
    has been assigned and before the read-back. *)
Definition app1Created : State :=
  {| data := {| rd_Id := "app1"; rd_IsNewResource := true; rd_attrs := app1Config |};
     sent := [] |}.

(** Two services with nothing to list for [app1]: one reports that the
    monitor is not found, the other delivers no page and no error. *)
Definition remoteNotFound : CloudWatchRUM :=
  service [] (Some notFoundException) None None.

Definition nothingListed : CloudWatchRUM :=
  service [] None None None.

(** The same with both optional ARNs configured. *)
Definition app2New : State :=
  {| data := {| rd_Id := ""; rd_IsNewResource := true;
                rd_attrs := <["app_monitor_name" := "app2"]>
                            (<["destination" := "Evidently"]>
                            (<["destination_arn" := "arn:aws:evidently:us-east-1:123456789012:project/p"]>
                            (<["iam_role_arn" := "arn:aws:iam::123456789012:role/r"]> ∅))) |};
     sent := [] |}.

(** The tracked resource data of [app1] after the monitor name was changed
    in the configuration: the schema lets the name change in place. *)
Definition app1Renamed : State :=
  {| data := {| rd_Id := "app1"; rd_IsNewResource := false;
                rd_attrs := <["app_monitor_name" := "app1-renamed"]> app1Config |};
     sent := [] |}.

(** A resource that was imported: its identifier is all that is known. *)
Definition app1Imported : State :=
  {| data := {| rd_Id := "app1"; rd_IsNewResource := false; rd_attrs := ∅ |};
     sent := [] |}.

(** * Properties *)

(** ** Running the monad *)

Lemma bind_Done {A B} (m : M A) (k : A -> M B) s a s' :
  m s = Done a s' -> (m ≫= k) s = k a s'.
Proof. intros Hm. unfold mbind, M_bind. now rewrite Hm. Qed.

(** ** The page function and the paginator *)

Lemma appendDestinations_omap destinations output :
  appendDestinations output destinations = output ++ omap id destinations.
Proof.
  revert output.
  induction destinations as [|[v|] rest IH]; intros output; simpl.
  - now rewrite app_nil_r.
  - rewrite IH, <- app_assoc. reflexivity.
  - apply IH.
Qed.

Lemma collectPage_entries output page lastPage :
  collectPage output page lastPage = (output ++ pageEntries page, negb lastPage).
Proof.
  destruct page as [p|]; simpl.
  - now rewrite appendDestinations_omap.
  - now rewrite app_nil_r.
Qed.

Lemma allEntries_cons page pages :
  allEntries (page :: pages) = pageEntries page ++ allEntries pages.
Proof. reflexivity. Qed.

Lemma allEntries_app pages1 pages2 :
  allEntries (pages1 ++ pages2) = allEntries pages1 ++ allEntries pages2.
Proof. unfold allEntries. now rewrite fmap_app, concat_app. Qed.

(** With the flags the paginator passes, every delivered page reaches the
    page function, and the error that ended the listing is returned. *)
Lemma eachPage_collectPage pages final acc :
  eachPage collectPage acc (withLastPage pages final) final
  = (acc ++ allEntries pages, final).
Proof.
  revert acc.
  induction pages as [|page pages IH]; intros acc.
  - simpl. now rewrite app_nil_r.
  - destruct pages as [|next pages].
    + cbn [withLastPage eachPage]. rewrite collectPage_entries.
      rewrite allEntries_cons. cbn [allEntries fmap list_fmap concat].
      rewrite app_nil_r.
      destruct final as [e|]; reflexivity.
    + change (withLastPage (page :: next :: pages) final)
        with ((page, false) :: withLastPage (next :: pages) final).
      cbn [eachPage]. rewrite collectPage_entries. cbn [negb].
      rewrite IH, (allEntries_cons page (next :: pages)), app_assoc.
      reflexivity.
Qed.

(** A page that is flagged as the last one ends the scan, nil or not,
    and no error is reported. *)
Lemma eachPage_last_page acc page events final :
  eachPage collectPage acc ((page, true) :: events) final
  = (acc ++ pageEntries page, None).
Proof. cbn [eachPage]. now rewrite collectPage_entries. Qed.

(** A nil page that is not flagged as the last one never stops the scan
    and leaves no trace, whatever flags the other pages carry. *)
Lemma eachPage_skip_nil acc events1 events2 final :
  eachPage collectPage acc (events1 ++ (None, false) :: events2) final
  = eachPage collectPage acc (events1 ++ events2) final.
Proof.
  revert acc.
  induction events1 as [|[page lastPage] events1 IH]; intros acc.
  - reflexivity.
  - simpl. rewrite !collectPage_entries.
    destruct lastPage; simpl; [reflexivity | apply IH].
Qed.

Lemma ListRumMetricsDestinationsPages_run conn input s :
  ListRumMetricsDestinationsPages conn input collectPage [] s
  = Done (allEntries (ListRumMetricsDestinations conn input).1,
          (ListRumMetricsDestinations conn input).2)
         (sending (SentList input) s).
Proof.
  unfold ListRumMetricsDestinationsPages.
  rewrite (bind_Done _ _ s tt (sending (SentList input) s)) by reflexivity.
  destruct (ListRumMetricsDestinations conn input) as [pages final].
  rewrite eachPage_collectPage. reflexivity.
Qed.

(** ** The finder *)

Lemma policy_length input entries :
  policy input entries =
    if bool_decide (Z.of_nat (length entries) = 0)
    then (None, Some (EmptyResultError input))
    else if bool_decide (Z.of_nat (length entries) > 1)
         then (None, Some (TooManyResultsError (Z.of_nat (length entries)) input))
         else (head entries, None).
Proof.
  destruct entries as [|v [|w entries]]; try reflexivity.
  cbn [policy length].
  rewrite bool_decide_eq_false_2 by lia.
  rewrite bool_decide_eq_true_2 by lia.
  reflexivity.
Qed.

(** The finder answers what [lookup] describes, and its only effect is
    the listing request. *)
Lemma FindMetricsDestinationByName_run conn name s :
  let input := {| list_AppMonitorName := Some name |} in
  FindMetricsDestinationByName conn name s
  = Done (lookup input (ListRumMetricsDestinations conn input).1
                       (ListRumMetricsDestinations conn input).2)
         (sending (SentList input) s).
Proof.
  intros input. unfold FindMetricsDestinationByName. fold input.
  rewrite (bind_Done _ _ _ _ _ (ListRumMetricsDestinationsPages_run conn input s)).
  destruct (ListRumMetricsDestinations conn input) as [pages final]. simpl.
  unfold lookup.
  destruct final as [e|].
  - destruct (ErrCodeEquals (Some e) ErrCodeResourceNotFoundException); reflexivity.
  - cbn [ErrCodeEquals]. rewrite policy_length.
    destruct (allEntries pages) as [|v [|w entries]] eqn:Hentries; try reflexivity.
    cbn [length].
    rewrite bool_decide_eq_false_2 by lia.
    rewrite bool_decide_eq_true_2 by lia.
    reflexivity.
Qed.

(** The finder never panics, and it answers with a record or with an
    error, never with both and never with neither. *)
Lemma lookup_record_or_error input pages final :
  (exists v, lookup input pages final = (Some v, None))
  \/ (exists e, lookup input pages final = (None, Some e)).
Proof.
  unfold lookup, policy.
  destruct final as [e|].
  - right. destruct (ErrCodeEquals _ _); eauto.
  - destruct (allEntries pages) as [|v [|w entries]]; eauto.
Qed.

(** Pages that are nil or hold nil entries only have no entries; in
    particular a listing of no page at all has none. *)
Lemma allEntries_only_nil pages :
  Forall (fun page => forall p, page = Some p -> Forall (fun v => v = None) (Destinations p))
         pages ->
  allEntries pages = [].
Proof.
  induction 1 as [|page pages Hpage _ IH]; [reflexivity|].
  rewrite allEntries_cons, IH, app_nil_r.
  destruct page as [p|]; [|reflexivity].
  specialize (Hpage p eq_refl). cbn [pageEntries].
  induction Hpage as [|v entries -> _ IHentries]; [reflexivity | exact IHentries].
Qed.

(** A listing without error of no page at all, or of pages that are nil
    or hold nil entries only, is answered with the empty-result error. *)
Corollary lookup_nothing_but_nil conn name s :
  let input := {| list_AppMonitorName := Some name |} in
  (ListRumMetricsDestinations conn input).2 = None ->
  Forall (fun page => forall p, page = Some p -> Forall (fun v => v = None) (Destinations p))
         (ListRumMetricsDestinations conn input).1 ->
  FindMetricsDestinationByName conn name s
  = Done (None, Some (EmptyResultError input)) (sending (SentList input) s).
Proof.
  intros input Hfinal Hnil.
  rewrite FindMetricsDestinationByName_run. fold input.
  unfold lookup. now rewrite Hfinal, (allEntries_only_nil _ Hnil).
Qed.

(** ** Lookup: what is accumulated, and the policy on it *)

(** C4: for every name and every finite sequence of pages the list call
    delivers, whether or not an error ends the listing, the page function
    sees every page (the paginator flags as last only the final page of a
    listing that ends without error): the accumulated sequence is the
    concatenation, page after page and in the order within each page, of
    exactly the non-nil entries; and Lookup decides on that whole
    sequence. *)
Theorem lookup_accumulates_all_pages conn name s :
  let input := {| list_AppMonitorName := Some name |} in
  let pages := (ListRumMetricsDestinations conn input).1 in
  let final := (ListRumMetricsDestinations conn input).2 in
  ListRumMetricsDestinationsPages conn input collectPage [] s
    = Done (allEntries pages, final) (sending (SentList input) s)
  /\ FindMetricsDestinationByName conn name s
    = Done (lookup input pages final) (sending (SentList input) s).
Proof.
  intros input pages final. split.
  - apply ListRumMetricsDestinationsPages_run.
  - apply FindMetricsDestinationByName_run.
Qed.

(** C1: if the listing is drained without a remote error and no non-nil
    entry was accumulated, Lookup returns no record and fails with the
    empty-result error, which [tfresource.NotFound] accepts as not
    found. *)
Theorem lookup_zero_entries_not_found `{Tfresource} conn name s s' :
  let input := {| list_AppMonitorName := Some name |} in
  ListRumMetricsDestinationsPages conn input collectPage [] s
    = Done ([], None) s' ->
  FindMetricsDestinationByName conn name s
    = Done (None, Some (EmptyResultError input)) s'
  /\ NotFound (Some (EmptyResultError input)) = true.
Proof.
  intros input Hdrained. split.
  - unfold FindMetricsDestinationByName. fold input.
    rewrite (bind_Done _ _ _ _ _ Hdrained). reflexivity.
  - apply AsNotFoundError_empty.
Qed.

Lemma lookup_zero_entries_not_found_witness :
  FindMetricsDestinationByName
    (service [None; pageOf [None; None]; pageOf []] None None None) "app1" app1Tracked
  = Done (None, Some (EmptyResultError {| list_AppMonitorName := Some "app1" |}))
         (sending (SentList {| list_AppMonitorName := Some "app1" |}) app1Tracked)
  /\ NotFound (H := strictTfresource)
       (Some (EmptyResultError {| list_AppMonitorName := Some "app1" |})) = true.
Proof.
  apply (lookup_zero_entries_not_found (H := strictTfresource)
           (service [None; pageOf [None; None]; pageOf []] None None None)
           "app1" app1Tracked).
  reflexivity.
Defined.

(** C2: if the listing was drained, that is ended without a remote
    error, and two or more non-nil entries were accumulated over all its
    pages, Lookup fails with the too-many-results error carrying exactly
    the number of accumulated entries; and with two or more accumulated
    entries it returns no record in any case: it never selects one of
    them. *)
Theorem lookup_many_entries_ambiguous conn name s output err s' :
  let input := {| list_AppMonitorName := Some name |} in
  ListRumMetricsDestinationsPages conn input collectPage [] s
    = Done (output, err) s' ->
  (2 <= length output)%nat ->
  (err = None ->
     FindMetricsDestinationByName conn name s
     = Done (None, Some (TooManyResultsError (Z.of_nat (length output)) input)) s')
  /\ (exists e, FindMetricsDestinationByName conn name s = Done (None, Some e) s').
Proof.
  intros input Hlisted Hmany.
  assert (Hfind : FindMetricsDestinationByName conn name s
                  = if ErrCodeEquals err ErrCodeResourceNotFoundException
                    then Done (None, Some (NotFoundError err input)) s'
                    else match err with
                         | Some e => Done (None, Some (FromClient e)) s'
                         | None => Done (None, Some (TooManyResultsError
                                                       (Z.of_nat (length output)) input)) s'
                         end).
  { unfold FindMetricsDestinationByName. fold input.
    rewrite (bind_Done _ _ _ _ _ Hlisted).
    destruct (ErrCodeEquals err ErrCodeResourceNotFoundException); [reflexivity|].
    destruct err as [e|]; [reflexivity|].
    rewrite bool_decide_eq_false_2 by lia.
    rewrite bool_decide_eq_true_2 by lia.
    reflexivity. }
  split.
  - intros ->. exact Hfind.
  - rewrite Hfind.
    destruct (ErrCodeEquals err ErrCodeResourceNotFoundException); [eauto|].
    destruct err; eauto.
Qed.

Lemma lookup_many_entries_ambiguous_witness :
  FindMetricsDestinationByName
    (service [pageOf [Some cloudWatch; None]; None; pageOf [Some evidently]]
             None None None) "app1" app1Tracked
  = Done (None, Some (TooManyResultsError 2 {| list_AppMonitorName := Some "app1" |}))
         (sending (SentList {| list_AppMonitorName := Some "app1" |}) app1Tracked).
Proof.
  refine (proj1 (lookup_many_entries_ambiguous
                   (service [pageOf [Some cloudWatch; None]; None; pageOf [Some evidently]]
                            None None None)
                   "app1" app1Tracked [cloudWatch; evidently] None _ _ _) _).
  - reflexivity.
  - simpl. lia.
  - reflexivity.
Defined.

(** C9: a nil page is handled like any other page and adds nothing: the
    page function leaves the accumulated sequence as it is and asks for
    more pages exactly when the page is not flagged as the last one.  So a
    nil page that is not flagged can be taken out of any scan without
    changing its result, a nil page ends the scan only when it is flagged
    as the last page, and in a listing the pages before and after a nil
    page are all accumulated. *)
Theorem nil_page_skipped :
  (forall output lastPage,
     collectPage output None lastPage = (output, negb lastPage))
  /\ (forall acc events1 events2 final,
        eachPage collectPage acc (events1 ++ (None, false) :: events2) final
        = eachPage collectPage acc (events1 ++ events2) final)
  /\ (forall acc events final,
        eachPage collectPage acc ((None, true) :: events) final = (acc, None))
  /\ (forall acc pages1 pages2 final,
        eachPage collectPage acc (withLastPage (pages1 ++ None :: pages2) final) final
        = (acc ++ allEntries pages1 ++ allEntries pages2, final)).
Proof.
  split; [|split; [|split]].
  - reflexivity.
  - intros. apply eachPage_skip_nil.
  - intros. rewrite eachPage_last_page. cbn [pageEntries].
    now rewrite app_nil_r.
  - intros. rewrite eachPage_collectPage, allEntries_app, allEntries_cons.
    reflexivity.
Qed.

(** ** The lifecycle functions, step by step *)

Section LifecycleRuns.
Context `{Tfresource}.

(** Read: one listing under the identifier, then one of four ends. *)
Lemma resourceMetricsDestinationRead_run conn s :
  let id := rd_Id (data s) in
  let input := {| list_AppMonitorName := Some id |} in
  let s1 := sending (SentList input) s in
  resourceMetricsDestinationRead conn s
  = let '(dest, err) := lookup input (ListRumMetricsDestinations conn input).1
                                     (ListRumMetricsDestinations conn input).2 in
    if negb (rd_IsNewResource (data s)) && NotFound err
    then Done [] {| data := setId "" (data s); sent := sent s1 |}
    else match err with
         | Some e =>
             Done (AppendErrorf []
                     "reading CloudWatch RUM Metrics Destination (%s): %s"
                     [ArgString id; ArgError e]) s1
         | None =>
             match dest with
             | Some dest => Done [] {| data := populated id dest (data s);
                                       sent := sent s1 |}
             | None => Panic
             end
         end.
Proof.
  intros id input s1. unfold resourceMetricsDestinationRead.
  rewrite (bind_Done d_Id _ s id s) by reflexivity.
  rewrite (bind_Done _ _ _ _ _ (FindMetricsDestinationByName_run conn id s)).
  fold input s1.
  destruct (lookup input _ _) as [dest err].
  rewrite (bind_Done d_IsNewResource _ s1 (rd_IsNewResource (data s)) s1)
    by reflexivity.
  destruct (negb (rd_IsNewResource (data s)) && NotFound err); [reflexivity|].
  destruct err as [e|]; [reflexivity|].
  destruct dest as [dest|]; reflexivity.
Qed.

(** Read never panics: the finder answers with a record whenever it
    answers without an error. *)
Lemma resourceMetricsDestinationRead_total conn s :
  exists diags s',
    resourceMetricsDestinationRead conn s = Done diags s'
    /\ sent s' = sent s ++ [SentList {| list_AppMonitorName := Some (rd_Id (data s)) |}]
    /\ (rd_Id (data s') = rd_Id (data s)
        \/ rd_IsNewResource (data s) = false /\ rd_Id (data s') = "").
Proof.
  rewrite resourceMetricsDestinationRead_run.
  set (input := {| list_AppMonitorName := Some (rd_Id (data s)) |}).
  destruct (lookup_record_or_error input
              (ListRumMetricsDestinations conn input).1
              (ListRumMetricsDestinations conn input).2) as [[v ->]|[e ->]].
  - rewrite andb_false_r. eexists _, _. split; [reflexivity|]. split; auto.
  - destruct (rd_IsNewResource (data s)) eqn:HisNew; cbn [negb andb].
    + eexists _, _. split; [reflexivity|]. split; auto.
    + destruct (NotFound (Some e)); eexists _, _; (split; [reflexivity|]); split; auto.
Qed.

(** Put: the request of the configuration goes out; on a failure that
    is all, on success the identifier is assigned if the resource is
    new and Read runs. *)
Lemma resourceMetricsDestinationPut_run conn s :
  let name := attr (data s) "app_monitor_name" in
  let input := putRequest (data s) in
  resourceMetricsDestinationPut conn s
  = match PutRumMetricsDestination conn input with
    | Some e =>
        Done (AppendErrorf []
                "putting CloudWatch RUM Metrics Destination (%s): %s"
                [ArgString name; ArgError (FromClient e)])
             (sending (SentPut input) s)
    | None =>
        resourceMetricsDestinationRead conn
          {| data := if rd_IsNewResource (data s)
                     then setId name (data s) else data s;
             sent := sent s ++ [SentPut input] |}
    end.
Proof.
  intros name input. unfold resourceMetricsDestinationPut.
  rewrite (bind_Done (d_Get _) _ s name s) by reflexivity.
  rewrite (bind_Done (d_Get _) _ s (attr (data s) AttrDestination) s) by reflexivity.
  rewrite (bind_Done (d_GetOk AttrDestinationARN) _ s _ s eq_refl).
  rewrite (bind_Done (d_GetOk AttrIAMRoleARN) _ s _ s eq_refl).
  cbn [put_AppMonitorName put_Destination put_DestinationArn put_IamRoleArn].
  match goal with
  | |- (PutRumMetricsDestinationWithContext conn ?i ≫= _) s = _ =>
      replace i with input
  end.
  2: { unfold input, putRequest, optional.
       destruct (bool_decide (attr (data s) AttrDestinationARN = ""));
         destruct (bool_decide (attr (data s) AttrIAMRoleARN = ""));
         reflexivity. }
  rewrite (bind_Done (PutRumMetricsDestinationWithContext conn input) _ s
             (PutRumMetricsDestination conn input) (sending (SentPut input) s))
    by reflexivity.
  destruct (PutRumMetricsDestination conn input) as [e|]; [reflexivity|].
  rewrite (bind_Done d_IsNewResource _ (sending (SentPut input) s)
             (rd_IsNewResource (data s)) _ eq_refl).
  match goal with
  | |- (?m ;; _) ?s0 = resourceMetricsDestinationRead conn ?s1 =>
      rewrite (bind_Done m _ s0 tt s1)
        by (destruct (rd_IsNewResource (data s)); reflexivity)
  end.
  unfold mbind, M_bind.
  destruct (resourceMetricsDestinationRead conn _); reflexivity.
Qed.

End LifecycleRuns.

(** Delete: the request goes out, the resource data is only read. *)
Lemma resourceMetricsDestinationDelete_run conn s :
  let input := deleteRequest (data s) in
  let err := DeleteRumMetricsDestination conn input in
  resourceMetricsDestinationDelete conn s
  = Done (if ErrCodeEquals err ErrCodeResourceNotFoundException
          then []
          else match err with
               | Some e =>
                   AppendErrorf []
                     "deleting CloudWatch RUM Metrics Destination (%s): %s"
                     [ArgString (rd_Id (data s)); ArgError (FromClient e)]
               | None => []
               end)
         (sending (SentDelete input) s).
Proof.
  intros input err. unfold resourceMetricsDestinationDelete.
  rewrite (bind_Done d_Id _ s _ s eq_refl).
  rewrite (bind_Done (d_Get _) _ s _ s eq_refl).
  rewrite (bind_Done (d_GetOk AttrDestinationARN) _ s _ s eq_refl).
  cbn [del_AppMonitorName del_Destination del_DestinationArn].
  match goal with
  | |- (DeleteRumMetricsDestinationWithContext conn ?i ≫= _) s = _ =>
      replace i with input
  end.
  2: { unfold input, deleteRequest, optional.
       destruct (bool_decide (attr (data s) AttrDestinationARN = "")); reflexivity. }
  rewrite (bind_Done (DeleteRumMetricsDestinationWithContext conn input) _ s
             err (sending (SentDelete input) s)) by reflexivity.
  destruct (ErrCodeEquals err ErrCodeResourceNotFoundException); [reflexivity|].
  destruct err as [e|]; reflexivity.
Qed.

Lemma optional_Some v w : optional v = Some w <-> v = w /\ w <> "".
Proof.
  unfold optional. case_bool_decide as Hv.
  - split; [discriminate|]. intros [-> Hw]. contradiction.
  - split.
    + intros [= ->]. auto.
    + intros [-> _]. reflexivity.
Qed.

Lemma HasError_AppendErrorf diags format a :
  HasError (AppendErrorf diags format a) = true.
Proof.
  unfold HasError, AppendErrorf. rewrite existsb_app. simpl.
  apply orb_true_r.
Qed.

(** ** Lookup: the two ways of finding nothing *)

(** C3 as it is stated does not hold: the error Lookup returns when the
    service reports that the resource is not found is not the error it
    returns when nothing was listed, and a caller sees the difference:
    the diagnostics of Read for a new resource are not the same. *)
Lemma not_found_outcomes_distinguishable :
  FindMetricsDestinationByName remoteNotFound "app1" app1Tracked
    <> FindMetricsDestinationByName nothingListed "app1" app1Tracked
  /\ resourceMetricsDestinationRead (H := strictTfresource) remoteNotFound app1Created
    <> resourceMetricsDestinationRead (H := strictTfresource) nothingListed app1Created.
Proof.
  split; intros Heq.
  - rewrite !FindMetricsDestinationByName_run in Heq. discriminate Heq.
  - rewrite !resourceMetricsDestinationRead_run in Heq. discriminate Heq.
Qed.

(** C3, as amended: when the list call fails with the service's
    resource-not-found code, Lookup returns no record and fails with a
    [retry.NotFoundError] that wraps the remote error; when nothing was
    listed it returns no record and fails with the empty-result error.
    [tfresource.NotFound] accepts both, so Read treats the two alike: for
    an object that is not new it clears the identifier and reports no
    error, for a new object it reports an error. *)
Theorem not_found_outcomes_alike `{Tfresource} conn1 conn2 s :
  let name := rd_Id (data s) in
  let input := {| list_AppMonitorName := Some name |} in
  let s1 := sending (SentList input) s in
  let remote := (ListRumMetricsDestinations conn1 input).2 in
  ErrCodeEquals remote ErrCodeResourceNotFoundException = true ->
  (ListRumMetricsDestinations conn2 input).2 = None ->
  allEntries (ListRumMetricsDestinations conn2 input).1 = [] ->
  FindMetricsDestinationByName conn1 name s
    = Done (None, Some (NotFoundError remote input)) s1
  /\ FindMetricsDestinationByName conn2 name s
    = Done (None, Some (EmptyResultError input)) s1
  /\ NotFound (Some (NotFoundError remote input)) = true
  /\ NotFound (Some (EmptyResultError input)) = true
  /\ (rd_IsNewResource (data s) = false ->
        resourceMetricsDestinationRead conn1 s
          = Done [] {| data := setId "" (data s); sent := sent s1 |}
        /\ resourceMetricsDestinationRead conn2 s
          = Done [] {| data := setId "" (data s); sent := sent s1 |})
  /\ (rd_IsNewResource (data s) = true ->
        exists diags1 diags2,
          resourceMetricsDestinationRead conn1 s = Done diags1 s1
          /\ resourceMetricsDestinationRead conn2 s = Done diags2 s1
          /\ HasError diags1 = true /\ HasError diags2 = true).
Proof.
  intros name input s1 remote Hcode Hfinal Hnone.
  assert (Hlookup1 : lookup input (ListRumMetricsDestinations conn1 input).1 remote
                     = (None, Some (NotFoundError remote input))).
  { unfold lookup. destruct remote as [e|]; [|discriminate Hcode].
    now rewrite Hcode. }
  assert (Hlookup2 : lookup input (ListRumMetricsDestinations conn2 input).1
                       (ListRumMetricsDestinations conn2 input).2
                     = (None, Some (EmptyResultError input))).
  { unfold lookup. now rewrite Hfinal, Hnone. }
  pose proof (AsNotFoundError_retry remote input) as Hretry.
  pose proof (AsNotFoundError_empty input) as Hempty.
  split; [|split; [|split; [|split; [|split]]]].
  - rewrite FindMetricsDestinationByName_run. fold name input s1. fold remote.
    now rewrite Hlookup1.
  - rewrite FindMetricsDestinationByName_run. fold name input s1.
    now rewrite Hlookup2.
  - exact Hretry.
  - exact Hempty.
  - intros HisNew. rewrite !resourceMetricsDestinationRead_run.
    fold name input s1. fold remote. rewrite Hlookup1, Hlookup2, HisNew.
    cbn [NotFound negb andb]. rewrite Hretry, Hempty. split; reflexivity.
  - intros HisNew. rewrite !resourceMetricsDestinationRead_run.
    fold name input s1. fold remote. rewrite Hlookup1, Hlookup2, HisNew.
    cbn [negb andb]. eexists _, _.
    split; [reflexivity|]. split; [reflexivity|].
    split; apply HasError_AppendErrorf.
Qed.

Lemma not_found_outcomes_alike_witness :
  resourceMetricsDestinationRead (H := wideTfresource) remoteNotFound app1Tracked
  = resourceMetricsDestinationRead (H := wideTfresource) nothingListed app1Tracked.
Proof.
  destruct (not_found_outcomes_alike (H := wideTfresource)
              remoteNotFound nothingListed app1Tracked eq_refl eq_refl eq_refl)
    as (_ & _ & _ & _ & Htracked & _).
  destruct (Htracked eq_refl) as [-> ->]. reflexivity.
Defined.

(** ** Upsert *)

Lemma putRequest_fields d :
  put_AppMonitorName (putRequest d) = Some (attr d "app_monitor_name")
  /\ put_Destination (putRequest d) = Some (attr d AttrDestination)
  /\ (forall v, put_DestinationArn (putRequest d) = Some v
                <-> attr d AttrDestinationARN = v /\ v <> "")
  /\ (forall v, put_IamRoleArn (putRequest d) = Some v
                <-> attr d AttrIAMRoleARN = v /\ v <> "").
Proof.
  split; [reflexivity|]. split; [reflexivity|].
  split; intros v; apply optional_Some.
Qed.

(** C8: the put request that goes out, the only one, always carries the
    monitor name and the destination of the configuration; it carries the
    destination ARN, respectively the IAM role ARN, exactly when a value
    is configured for it, that is when the attribute is set to something
    other than the empty string, and then it carries that value: an empty
    value is never sent. *)
Theorem put_request_fields `{Tfresource} conn s :
  exists input rest diags s',
    resourceMetricsDestinationPut conn s = Done diags s'
    /\ sent s' = sent s ++ SentPut input :: rest
    /\ Forall (fun r => forall i, r <> SentPut i) rest
    /\ put_AppMonitorName input = Some (attr (data s) "app_monitor_name")
    /\ put_Destination input = Some (attr (data s) AttrDestination)
    /\ (forall v, put_DestinationArn input = Some v
                  <-> attr (data s) AttrDestinationARN = v /\ v <> "")
    /\ (forall v, put_IamRoleArn input = Some v
                  <-> attr (data s) AttrIAMRoleARN = v /\ v <> "").
Proof.
  exists (putRequest (data s)).
  rewrite resourceMetricsDestinationPut_run.
  destruct (PutRumMetricsDestination conn (putRequest (data s))) as [e|].
  - exists [], (AppendErrorf []
                  "putting CloudWatch RUM Metrics Destination (%s): %s"
                  [ArgString (attr (data s) "app_monitor_name");
                   ArgError (FromClient e)]),
           (sending (SentPut (putRequest (data s))) s).
    split; [reflexivity|]. split; [reflexivity|]. split; [constructor|].
    apply putRequest_fields.
  - match goal with
    | |- context [resourceMetricsDestinationRead conn ?s0] =>
        destruct (resourceMetricsDestinationRead_total conn s0)
          as (diags & s' & -> & Hsent & _)
    end.
    exists [SentList {| list_AppMonitorName :=
                          Some (rd_Id (if rd_IsNewResource (data s)
                                       then setId (attr (data s) "app_monitor_name") (data s)
                                       else data s)) |}], diags, s'.
    split; [reflexivity|]. split.
    { rewrite Hsent. cbn [sent]. now rewrite <- app_assoc. }
    split.
    { constructor; [discriminate | constructor]. }
    apply putRequest_fields.
Qed.

(** C5: if the remote put call fails, Upsert returns one error that
    carries the operation, the monitor name of the configuration (the
    identifier a new resource was about to get) and the cause, and leaves
    the resource data, the identifier included, as it was.  If the call
    succeeds, the identifier is set to the monitor name when the resource
    is new, which is how the code knows that none was assigned before, and
    is left alone otherwise; then Read runs.  At the end the identifier of
    a new resource is the monitor name, and that of a resource that was
    not new is what it was, or was cleared by Read. *)
Theorem put_assigns_identifier_after_success `{Tfresource} conn s :
  let name := attr (data s) "app_monitor_name" in
  let input := putRequest (data s) in
  (forall e, PutRumMetricsDestination conn input = Some e ->
     exists diags s',
       resourceMetricsDestinationPut conn s = Done diags s'
       /\ diags = [ {| diag_Severity := Error;
                       diag_Format := "putting CloudWatch RUM Metrics Destination (%s): %s";
                       diag_Args := [ArgString name; ArgError (FromClient e)] |} ]
       /\ HasError diags = true
       /\ data s' = data s
       /\ sent s' = sent s ++ [SentPut input])
  /\ (PutRumMetricsDestination conn input = None ->
      resourceMetricsDestinationPut conn s
        = resourceMetricsDestinationRead conn
            {| data := if rd_IsNewResource (data s)
                       then setId name (data s) else data s;
               sent := sent s ++ [SentPut input] |}
      /\ exists diags s',
           resourceMetricsDestinationPut conn s = Done diags s'
           /\ (rd_IsNewResource (data s) = true -> rd_Id (data s') = name)
           /\ (rd_IsNewResource (data s) = false ->
                 rd_Id (data s') = rd_Id (data s) \/ rd_Id (data s') = "")).
Proof.
  intros name input. split.
  - intros e Hput. rewrite resourceMetricsDestinationPut_run.
    fold name input. rewrite Hput.
    eexists _, _. split; [reflexivity|]. repeat split.
  - intros Hput. rewrite resourceMetricsDestinationPut_run.
    fold name input. rewrite Hput. split; [reflexivity|].
    match goal with
    | |- context [resourceMetricsDestinationRead conn ?s0] =>
        destruct (resourceMetricsDestinationRead_total conn s0)
          as (diags & s' & -> & _ & Hid)
    end.
    exists diags, s'.
    cbn [data] in Hid.
    destruct (rd_IsNewResource (data s)) eqn:HisNew;
      cbn [setId rd_Id rd_IsNewResource] in Hid;
      (split; [|split]; [reflexivity | intros Hnew | intros Hnew]);
      try discriminate Hnew.
    + destruct Hid as [Hid|[Hold _]]; [exact Hid|].
      rewrite HisNew in Hold. discriminate Hold.
    + destruct Hid as [Hid|[_ Hid]]; auto.
Qed.

Lemma put_assigns_identifier_after_success_witness :
  (exists diags s',
     resourceMetricsDestinationPut (H := strictTfresource)
       (service [] None (Some throttlingException) None) app1New = Done diags s'
     /\ HasError diags = true /\ data s' = data app1New)
  /\ (exists diags s',
        resourceMetricsDestinationPut (H := strictTfresource)
          (service [pageOf [Some cloudWatch]] None None None) app1New = Done diags s'
        /\ rd_Id (data s') = "app1").
Proof.
  split.
  - destruct (proj1 (put_assigns_identifier_after_success (H := strictTfresource)
                       (service [] None (Some throttlingException) None) app1New)
                throttlingException eq_refl)
      as (diags & s' & Hrun & _ & Herror & Hdata & _).
    exists diags, s'. auto.
  - destruct (proj2 (put_assigns_identifier_after_success (H := strictTfresource)
                       (service [pageOf [Some cloudWatch]] None None None) app1New)
                eq_refl)
      as (_ & diags & s' & Hrun & Hnew & _).
    exists diags, s'. split; [exact Hrun | exact (Hnew eq_refl)].
Defined.

(** ** Read *)




(** ** Delete *)

(** C7: when the remote delete call fails with the service's
    resource-not-found code, Delete reports no error; when it fails with
    anything else, Delete reports one error that carries the operation,
    the identifier and the cause. *)
Theorem delete_not_found_is_success conn s e :
  let input := deleteRequest (data s) in
  let s' := sending (SentDelete input) s in
  DeleteRumMetricsDestination conn input = Some e ->
  (ErrCodeEquals (Some e) ErrCodeResourceNotFoundException = true ->
     resourceMetricsDestinationDelete conn s = Done [] s')
  /\ (ErrCodeEquals (Some e) ErrCodeResourceNotFoundException = false ->
      exists diags,
        resourceMetricsDestinationDelete conn s = Done diags s'
        /\ diags = [ {| diag_Severity := Error;
                        diag_Format := "deleting CloudWatch RUM Metrics Destination (%s): %s";
                        diag_Args := [ArgString (rd_Id (data s));
                                      ArgError (FromClient e)] |} ]
        /\ HasError diags = true).
Proof.
  intros input s' Hdelete.
  rewrite resourceMetricsDestinationDelete_run. fold input s'.
  rewrite Hdelete. split; intros ->.
  - reflexivity.
  - eexists. split; [reflexivity|]. split; reflexivity.
Qed.

Lemma delete_not_found_is_success_witness :
  resourceMetricsDestinationDelete
    (service [] None None (Some notFoundException)) app1Tracked
  = Done [] (sending (SentDelete (deleteRequest (data app1Tracked))) app1Tracked)
  /\ exists diags,
       resourceMetricsDestinationDelete
         (service [] None None (Some throttlingException)) app1Tracked
       = Done diags (sending (SentDelete (deleteRequest (data app1Tracked))) app1Tracked)
       /\ HasError diags = true.
Proof.
  split.
  - exact (proj1 (delete_not_found_is_success
                    (service [] None None (Some notFoundException)) app1Tracked
                    notFoundException eq_refl) eq_refl).
  - destruct (proj2 (delete_not_found_is_success
                       (service [] None None (Some throttlingException)) app1Tracked
                       throttlingException eq_refl) eq_refl)
      as (diags & Hrun & _ & Herror).
    eauto.
Defined.

(** C10: Delete always returns, and whatever it returns, no error or an
    error, the resource data is what it was: the identifier, the
    new-resource mark and every attribute.  Its only effect is the delete
    request. *)
Theorem delete_leaves_resource_data conn s :
  exists diags s',
    resourceMetricsDestinationDelete conn s = Done diags s'
    /\ data s' = data s
    /\ sent s' = sent s ++ [SentDelete (deleteRequest (data s))].
Proof.
  rewrite resourceMetricsDestinationDelete_run.
  eexists _, _. split; [reflexivity|]. split; reflexivity.
Qed.

(** * Further properties of the adapter *)

(** ** The finder: success, errors, and what the answer depends on *)

(** Lookup succeeds exactly when the listing ended without error and
    delivered exactly one non-nil entry over all its pages, and then the
    record it returns is that entry. *)
Theorem lookup_succeeds_iff_single conn name s v s' :
  let input := {| list_AppMonitorName := Some name |} in
  FindMetricsDestinationByName conn name s = Done (Some v, None) s'
  <-> (ListRumMetricsDestinations conn input).2 = None
      /\ allEntries (ListRumMetricsDestinations conn input).1 = [v]
      /\ s' = sending (SentList input) s.
Proof.
  intros input. rewrite FindMetricsDestinationByName_run. fold input.
  unfold lookup, policy.
  destruct (ListRumMetricsDestinations conn input) as [pages final]. cbn [fst snd].
  split.
  - intros Hdone. injection Hdone as Hanswer <-.
    destruct final as [e|].
    + destruct (ErrCodeEquals _ _); discriminate Hanswer.
    + destruct (allEntries pages) as [|w [|w' entries]]; try discriminate Hanswer.
      injection Hanswer as ->. auto.
  - intros (-> & -> & ->). reflexivity.
Qed.

(** Lookup answers with a record or with an error, never with both and
    never with neither; it always returns, sends the one listing request
    under the name it was given and leaves the resource data alone. *)
Theorem lookup_record_xor_error conn name s :
  exists r e,
    FindMetricsDestinationByName conn name s
    = Done (r, e) (sending (SentList {| list_AppMonitorName := Some name |}) s)
    /\ (is_Some r <-> e = None).
Proof.
  rewrite FindMetricsDestinationByName_run.
  set (input := {| list_AppMonitorName := Some name |}).
  destruct (lookup_record_or_error input
              (ListRumMetricsDestinations conn input).1
              (ListRumMetricsDestinations conn input).2) as [[v ->]|[e ->]].
  - exists (Some v), None. split; [reflexivity|]. split; eauto.
  - exists None, (Some e). split; [reflexivity|].
    split; [intros [? [=]] | discriminate].
Qed.

(** When the list call fails, whatever the pages before the failure
    delivered, Lookup returns no record; the error is the client's error
    itself, unless its code is the resource-not-found code, in which case
    it is wrapped, together with the request, in a [retry.NotFoundError]. *)
Theorem lookup_remote_error conn name s output e s' :
  let input := {| list_AppMonitorName := Some name |} in
  ListRumMetricsDestinationsPages conn input collectPage [] s
    = Done (output, Some e) s' ->
  FindMetricsDestinationByName conn name s
  = Done (None, Some (if ErrCodeEquals (Some e) ErrCodeResourceNotFoundException
                      then NotFoundError (Some e) input
                      else FromClient e)) s'.
Proof.
  intros input Hlisted. unfold FindMetricsDestinationByName. fold input.
  rewrite (bind_Done _ _ _ _ _ Hlisted).
  destruct (ErrCodeEquals (Some e) ErrCodeResourceNotFoundException); reflexivity.
Qed.

Lemma lookup_remote_error_witness :
  FindMetricsDestinationByName
    (service [pageOf [Some cloudWatch]] (Some throttlingException) None None)
    "app1" app1Tracked
  = Done (None, Some (FromClient throttlingException))
         (sending (SentList {| list_AppMonitorName := Some "app1" |}) app1Tracked).
Proof.
  apply (lookup_remote_error
           (service [pageOf [Some cloudWatch]] (Some throttlingException) None None)
           "app1" app1Tracked [cloudWatch] throttlingException).
  reflexivity.
Defined.

(** The answer of Lookup depends on the listing only through the way it
    ended and the sequence of its non-nil entries: how the entries are
    split over pages, and nil pages or nil entries in between, make no
    difference. *)
Theorem lookup_ignores_paging conn1 conn2 name s :
  let input := {| list_AppMonitorName := Some name |} in
  (ListRumMetricsDestinations conn1 input).2
    = (ListRumMetricsDestinations conn2 input).2 ->
  allEntries (ListRumMetricsDestinations conn1 input).1
    = allEntries (ListRumMetricsDestinations conn2 input).1 ->
  FindMetricsDestinationByName conn1 name s
  = FindMetricsDestinationByName conn2 name s.
Proof.
  intros input Hfinal Hentries.
  rewrite !FindMetricsDestinationByName_run. fold input.
  unfold lookup. now rewrite Hfinal, Hentries.
Qed.

Lemma lookup_ignores_paging_witness :
  FindMetricsDestinationByName
    (service [pageOf [None; Some cloudWatch]; None; pageOf []; pageOf [Some evidently; None]]
             None None None) "app1" app1Tracked
  = FindMetricsDestinationByName
      (service [pageOf [Some cloudWatch; Some evidently]] None None None)
      "app1" app1Tracked.
Proof.
  apply lookup_ignores_paging; reflexivity.
Defined.

(** ** Read: what a read-back writes *)

Lemma populated_attrs id dest d :
  rd_Id (populated id dest d) = rd_Id d
  /\ rd_IsNewResource (populated id dest d) = rd_IsNewResource d
  /\ attr (populated id dest d) "app_monitor_name" = id
  /\ attr (populated id dest d) AttrDestination = default "" (Destination dest)
  /\ attr (populated id dest d) AttrDestinationARN = default "" (DestinationArn dest)
  /\ attr (populated id dest d) AttrIAMRoleARN = default "" (IamRoleArn dest).
Proof.
  unfold populated, attr, setAttr, AttrDestination, AttrDestinationARN, AttrIAMRoleARN.
  cbn [rd_Id rd_IsNewResource rd_attrs].
  repeat split.
  - rewrite !lookup_insert_ne by discriminate. now rewrite lookup_insert_eq.
  - rewrite !lookup_insert_ne by discriminate. now rewrite lookup_insert_eq.
  - rewrite !lookup_insert_ne by discriminate. now rewrite lookup_insert_eq.
  - now rewrite lookup_insert_eq.
Qed.

Lemma populated_other id dest d key :
  key <> "app_monitor_name" -> key <> AttrDestination ->
  key <> AttrDestinationARN -> key <> AttrIAMRoleARN ->
  rd_attrs (populated id dest d) !! key = rd_attrs d !! key.
Proof.
  intros H1 H2 H3 H4. unfold populated, setAttr. cbn [rd_attrs].
  now rewrite !lookup_insert_ne by congruence.
Qed.

(** Writing the same read-back a second time changes nothing. *)
Lemma populated_twice id dest d :
  populated id dest (populated id dest d) = populated id dest d.
Proof.
  unfold populated, setAttr. cbn [rd_Id rd_IsNewResource rd_attrs].
  f_equal. apply map_eq. intros key.
  rewrite !lookup_insert. repeat case_decide; reflexivity.
Qed.

(** When Lookup finds the record, Read reports nothing, keeps the
    identifier and the new-resource mark, and overwrites four attributes:
    the monitor name with the identifier, and the destination and the two
    ARNs with what the record holds, a nil field being written as the
    empty string.  Every other attribute is left as it was. *)
Theorem read_found_populates `{Tfresource} conn s dest s1 :
  FindMetricsDestinationByName conn (rd_Id (data s)) s = Done (Some dest, None) s1 ->
  exists s',
    resourceMetricsDestinationRead conn s = Done [] s'
    /\ sent s' = sent s1
    /\ rd_Id (data s') = rd_Id (data s)
    /\ rd_IsNewResource (data s') = rd_IsNewResource (data s)
    /\ attr (data s') "app_monitor_name" = rd_Id (data s)
    /\ attr (data s') AttrDestination = default "" (Destination dest)
    /\ attr (data s') AttrDestinationARN = default "" (DestinationArn dest)
    /\ attr (data s') AttrIAMRoleARN = default "" (IamRoleArn dest)
    /\ (forall key,
          key <> "app_monitor_name" -> key <> AttrDestination ->
          key <> AttrDestinationARN -> key <> AttrIAMRoleARN ->
          rd_attrs (data s') !! key = rd_attrs (data s) !! key).
Proof.
  intros Hfind.
  rewrite FindMetricsDestinationByName_run in Hfind.
  injection Hfind as Hlookup <-.
  pose proof (resourceMetricsDestinationRead_run conn s) as Hread.
  cbv zeta in Hread. rewrite Hlookup in Hread.
  cbn [NotFound] in Hread. rewrite andb_false_r in Hread.
  eexists. split; [exact Hread|]. cbn [data sent].
  destruct (populated_attrs (rd_Id (data s)) dest (data s))
    as (Hid & Hnew & Hname & Hdest & Harn & Hrole).
  repeat (split; [assumption || reflexivity|]).
  intros key. apply populated_other.
Qed.

Lemma read_found_populates_witness :
  exists s',
    resourceMetricsDestinationRead (H := strictTfresource)
      (service [pageOf [Some evidently]] None None None) app1Imported = Done [] s'
    /\ rd_Id (data s') = "app1"
    /\ attr (data s') "app_monitor_name" = "app1"
    /\ attr (data s') AttrDestination = "Evidently"
    /\ attr (data s') AttrIAMRoleARN = "arn:aws:iam::123456789012:role/r".
Proof.
  destruct (read_found_populates (H := strictTfresource)
              (service [pageOf [Some evidently]] None None None)
              app1Imported evidently _ eq_refl)
    as (s' & Hrun & _ & Hid & _ & Hname & Hdest & _ & Hrole & _).
  exists s'. auto.
Defined.

(** Read always returns: it never dereferences a nil record.  It sends
    one listing request, under the identifier; it never touches the
    new-resource mark nor an attribute other than the four it reads back;
    the identifier is kept, or cleared when the resource is not new, and
    then nothing is reported; and when Read reports an error the resource
    data is exactly what it was. *)
Theorem read_effects `{Tfresource} conn s :
  exists diags s',
    resourceMetricsDestinationRead conn s = Done diags s'
    /\ sent s' = sent s ++ [SentList {| list_AppMonitorName := Some (rd_Id (data s)) |}]
    /\ rd_IsNewResource (data s') = rd_IsNewResource (data s)
    /\ (rd_Id (data s') = rd_Id (data s)
        \/ rd_IsNewResource (data s) = false /\ rd_Id (data s') = "" /\ diags = [])
    /\ (forall key,
          key <> "app_monitor_name" -> key <> AttrDestination ->
          key <> AttrDestinationARN -> key <> AttrIAMRoleARN ->
          rd_attrs (data s') !! key = rd_attrs (data s) !! key)
    /\ (length diags <= 1)%nat
    /\ (diags <> [] -> HasError diags = true /\ data s' = data s).
Proof.
  rewrite resourceMetricsDestinationRead_run.
  set (input := {| list_AppMonitorName := Some (rd_Id (data s)) |}).
  destruct (lookup_record_or_error input
              (ListRumMetricsDestinations conn input).1
              (ListRumMetricsDestinations conn input).2) as [[v ->]|[e ->]].
  - rewrite andb_false_r. eexists _, _. split; [reflexivity|].
    cbn [data sent sending].
    destruct (populated_attrs (rd_Id (data s)) v (data s)) as (Hid & Hnew & _).
    split; [reflexivity|]. split; [exact Hnew|]. split; [left; exact Hid|].
    split; [intros key; apply populated_other|].
    split; [cbn; lia|]. intros Hdiags. contradiction.
  - destruct (negb (rd_IsNewResource (data s)) && NotFound (Some e)) eqn:Hclear.
    + apply andb_true_iff in Hclear as [HisNew _].
      apply negb_true_iff in HisNew.
      eexists _, _. split; [reflexivity|].
      cbn [data sent sending setId rd_Id rd_IsNewResource rd_attrs].
      split; [reflexivity|]. split; [reflexivity|]. split; [right; auto|].
      split; [reflexivity|].
      split; [cbn; lia|]. intros Hdiags. contradiction.
    + eexists _, _. split; [reflexivity|]. cbn [data sent sending].
      split; [reflexivity|]. split; [reflexivity|]. split; [left; reflexivity|].
      split; [reflexivity|].
      split; [cbn; lia|]. intros _. split; reflexivity.
Qed.

(** Reading twice is stable: when Read found the record, a second Read
    against the same answers of the service finds it again, reports
    nothing and leaves the resource data as the first Read left it. *)
Theorem read_twice_stable `{Tfresource} conn s dest s1 :
  FindMetricsDestinationByName conn (rd_Id (data s)) s = Done (Some dest, None) s1 ->
  exists s' s'',
    resourceMetricsDestinationRead conn s = Done [] s'
    /\ resourceMetricsDestinationRead conn s' = Done [] s''
    /\ data s'' = data s'.
Proof.
  intros Hfind.
  rewrite FindMetricsDestinationByName_run in Hfind.
  injection Hfind as Hlookup _.
  pose proof (resourceMetricsDestinationRead_run conn s) as Hread.
  cbv zeta in Hread. rewrite Hlookup in Hread.
  cbn [NotFound] in Hread. rewrite andb_false_r in Hread.
  eexists _, _. split; [exact Hread|].
  rewrite resourceMetricsDestinationRead_run. cbn [data].
  destruct (populated_attrs (rd_Id (data s)) dest (data s)) as (Hid & _).
  rewrite Hid, Hlookup. cbn [NotFound]. rewrite andb_false_r.
  split; [reflexivity|]. cbn [data]. apply populated_twice.
Qed.

Lemma read_twice_stable_witness :
  exists s' s'',
    resourceMetricsDestinationRead (H := strictTfresource)
      (service [pageOf [Some evidently]] None None None) app1Tracked = Done [] s'
    /\ resourceMetricsDestinationRead (H := strictTfresource)
         (service [pageOf [Some evidently]] None None None) s' = Done [] s''
    /\ data s'' = data s'.
Proof.
  exact (read_twice_stable (H := strictTfresource)
           (service [pageOf [Some evidently]] None None None)
           app1Tracked evidently _ eq_refl).
Defined.

(** ** Upsert: the read-back *)

(** The identifier Read runs under after a successful put: the monitor
    name of the configuration for a new resource, the identifier it has
    for a tracked one. *)
Lemma resourceMetricsDestinationPut_read_back `{Tfresource} conn s :
  let name := attr (data s) "app_monitor_name" in
  let id := if rd_IsNewResource (data s) then name else rd_Id (data s) in
  let input := {| list_AppMonitorName := Some id |} in
  let s1 := {| data := if rd_IsNewResource (data s)
                       then setId name (data s) else data s;
               sent := sent s ++ [SentPut (putRequest (data s)); SentList input] |} in
  PutRumMetricsDestination conn (putRequest (data s)) = None ->
  resourceMetricsDestinationPut conn s
  = let '(dest, err) := lookup input (ListRumMetricsDestinations conn input).1
                                     (ListRumMetricsDestinations conn input).2 in
    if negb (rd_IsNewResource (data s)) && NotFound err
    then Done [] {| data := setId "" (data s1); sent := sent s1 |}
    else match err with
         | Some e =>
             Done (AppendErrorf []
                     "reading CloudWatch RUM Metrics Destination (%s): %s"
                     [ArgString id; ArgError e]) s1
         | None =>
             match dest with
             | Some dest => Done [] {| data := populated id dest (data s1);
                                       sent := sent s1 |}
             | None => Panic
             end
         end.
Proof.
  intros name id input s1 Hput.
  rewrite resourceMetricsDestinationPut_run. fold name. rewrite Hput.
  rewrite resourceMetricsDestinationRead_run. cbn [data].
  assert (Hid : rd_Id (if rd_IsNewResource (data s)
                       then setId name (data s) else data s) = id).
  { unfold id. destruct (rd_IsNewResource (data s)); reflexivity. }
  assert (Hnew : rd_IsNewResource (if rd_IsNewResource (data s)
                                   then setId name (data s) else data s)
                 = rd_IsNewResource (data s)).
  { destruct (rd_IsNewResource (data s)) eqn:HisNew; cbn [setId rd_IsNewResource];
      exact HisNew. }
  rewrite Hid, Hnew. fold input.
  unfold sending, s1. cbn [data sent]. rewrite <- !app_assoc. reflexivity.
Qed.

(** Round trip of a put: when the put call succeeds and the listing that
    follows delivers exactly one record, Upsert reports nothing; the
    identifier is the monitor name for a new resource and is unchanged for
    a tracked one, the listing was asked for under that identifier, and
    the four attributes hold the identifier and the fields of the
    record. *)
Theorem put_reads_back `{Tfresource} conn s dest :
  let name := attr (data s) "app_monitor_name" in
  let id := if rd_IsNewResource (data s) then name else rd_Id (data s) in
  let input := {| list_AppMonitorName := Some id |} in
  PutRumMetricsDestination conn (putRequest (data s)) = None ->
  (ListRumMetricsDestinations conn input).2 = None ->
  allEntries (ListRumMetricsDestinations conn input).1 = [dest] ->
  exists s',
    resourceMetricsDestinationPut conn s = Done [] s'
    /\ sent s' = sent s ++ [SentPut (putRequest (data s)); SentList input]
    /\ rd_Id (data s') = id
    /\ rd_IsNewResource (data s') = rd_IsNewResource (data s)
    /\ attr (data s') "app_monitor_name" = id
    /\ attr (data s') AttrDestination = default "" (Destination dest)
    /\ attr (data s') AttrDestinationARN = default "" (DestinationArn dest)
    /\ attr (data s') AttrIAMRoleARN = default "" (IamRoleArn dest).
Proof.
  intros name id input Hput Hfinal Hone.
  rewrite (resourceMetricsDestinationPut_read_back conn s Hput).
  fold name id input. unfold lookup. rewrite Hfinal, Hone. cbn [policy NotFound].
  rewrite andb_false_r.
  eexists. split; [reflexivity|]. cbn [data sent].
  match goal with
  | |- context [populated id dest ?d] =>
      destruct (populated_attrs id dest d) as (Hid & Hnew & Hname & Hdest & Harn & Hrole)
  end.
  split; [reflexivity|].
  split. { rewrite Hid. unfold id. destruct (rd_IsNewResource (data s)); reflexivity. }
  split.
  { rewrite Hnew. destruct (rd_IsNewResource (data s)) eqn:HisNew;
      cbn [setId rd_IsNewResource]; exact HisNew. }
  auto.
Qed.

Lemma put_reads_back_witness :
  exists s',
    resourceMetricsDestinationPut (H := strictTfresource)
      (service [None; pageOf [None; Some evidently]] None None None) app2New = Done [] s'
    /\ rd_Id (data s') = "app2"
    /\ attr (data s') AttrDestination = "Evidently"
    /\ attr (data s') AttrDestinationARN
       = "arn:aws:evidently:us-east-1:123456789012:project/p".
Proof.
  destruct (put_reads_back (H := strictTfresource)
              (service [None; pageOf [None; Some evidently]] None None None)
              app2New evidently eq_refl eq_refl eq_refl)
    as (s' & Hrun & _ & Hid & _ & _ & Hdest & Harn & _).
  exists s'. auto.
Defined.

(** A monitor name that was changed in the configuration of a tracked
    resource does not survive a successful put: the put request goes out
    under the new name, the read-back is made under the identifier, which
    stays what it was, and it writes the identifier over the configured
    name. *)
Theorem put_renamed_reads_back_identifier `{Tfresource} conn s dest :
  let input := {| list_AppMonitorName := Some (rd_Id (data s)) |} in
  rd_IsNewResource (data s) = false ->
  PutRumMetricsDestination conn (putRequest (data s)) = None ->
  (ListRumMetricsDestinations conn input).2 = None ->
  allEntries (ListRumMetricsDestinations conn input).1 = [dest] ->
  exists put s',
    resourceMetricsDestinationPut conn s = Done [] s'
    /\ sent s' = sent s ++ [SentPut put; SentList input]
    /\ put_AppMonitorName put = Some (attr (data s) "app_monitor_name")
    /\ rd_Id (data s') = rd_Id (data s)
    /\ attr (data s') "app_monitor_name" = rd_Id (data s).
Proof.
  intros input Htracked Hput Hfinal Hone.
  rewrite (resourceMetricsDestinationPut_read_back conn s Hput).
  rewrite Htracked. fold input. unfold lookup. rewrite Hfinal, Hone.
  cbn [policy NotFound]. rewrite andb_false_r.
  exists (putRequest (data s)). eexists. split; [reflexivity|]. cbn [data sent].
  destruct (populated_attrs (rd_Id (data s)) dest (data s)) as (Hid & _ & Hname & _).
  auto.
Qed.

Lemma put_renamed_reads_back_identifier_witness :
  attr (data app1Renamed) "app_monitor_name" = "app1-renamed"
  /\ exists put s',
       resourceMetricsDestinationPut (H := strictTfresource)
         (service [pageOf [Some cloudWatch]] None None None) app1Renamed = Done [] s'
       /\ sent s' = [SentPut put; SentList {| list_AppMonitorName := Some "app1" |}]
       /\ put_AppMonitorName put = Some "app1-renamed"
       /\ attr (data s') "app_monitor_name" = "app1".
Proof.
  split; [reflexivity|].
  destruct (put_renamed_reads_back_identifier (H := strictTfresource)
              (service [pageOf [Some cloudWatch]] None None None)
              app1Renamed cloudWatch eq_refl eq_refl eq_refl eq_refl)
    as (put & s' & Hrun & Hsent & Hname & _ & Hattr).
  exists put, s'. auto.
Defined.

(** When the put call succeeds and the listing that follows shows
    nothing, the two kinds of resource part ways.  For a new resource
    Upsert reports the empty-result error of the read-back, and the
    identifier it has just assigned stays assigned.  For a tracked
    resource Upsert reports nothing and the identifier is cleared: the
    update ends without an error and without the object. *)
Theorem put_then_nothing_listed `{Tfresource} conn s :
  let name := attr (data s) "app_monitor_name" in
  let id := if rd_IsNewResource (data s) then name else rd_Id (data s) in
  let input := {| list_AppMonitorName := Some id |} in
  let requests := sent s ++ [SentPut (putRequest (data s)); SentList input] in
  PutRumMetricsDestination conn (putRequest (data s)) = None ->
  (ListRumMetricsDestinations conn input).2 = None ->
  allEntries (ListRumMetricsDestinations conn input).1 = [] ->
  (rd_IsNewResource (data s) = true ->
     resourceMetricsDestinationPut conn s
     = Done [ {| diag_Severity := Error;
                 diag_Format := "reading CloudWatch RUM Metrics Destination (%s): %s";
                 diag_Args := [ArgString name; ArgError (EmptyResultError input)] |} ]
            {| data := setId name (data s); sent := requests |})
  /\ (rd_IsNewResource (data s) = false ->
     resourceMetricsDestinationPut conn s
     = Done [] {| data := setId "" (data s); sent := requests |}).
Proof.
  intros name id input requests Hput Hfinal Hnone.
  rewrite (resourceMetricsDestinationPut_read_back conn s Hput).
  fold name id input. unfold lookup. rewrite Hfinal, Hnone. cbn [policy NotFound].
  rewrite AsNotFoundError_empty.
  split; intros HisNew; subst id requests input; rewrite HisNew; reflexivity.
Qed.

Lemma put_then_nothing_listed_witness :
  (exists diags s',
     resourceMetricsDestinationPut (H := strictTfresource) nothingListed app1New
       = Done diags s'
     /\ HasError diags = true /\ rd_Id (data s') = "app1")
  /\ (exists s',
        resourceMetricsDestinationPut (H := strictTfresource) nothingListed app1Tracked
          = Done [] s'
        /\ rd_Id (data s') = "").
Proof.
  split.
  - eexists _, _. split.
    + exact (proj1 (put_then_nothing_listed (H := strictTfresource)
                      nothingListed app1New eq_refl eq_refl eq_refl) eq_refl).
    + split; reflexivity.
  - eexists. split.
    + exact (proj2 (put_then_nothing_listed (H := strictTfresource)
                      nothingListed app1Tracked eq_refl eq_refl eq_refl) eq_refl).
    + reflexivity.
Defined.

(** Upsert always returns.  It reports at most one diagnostic, always an
    error.  It sends the put request of the configuration first and,
    only when the put call succeeded, one listing request after it: a
    failed put is not followed by a read-back.  It never sends a delete
    request and never touches the new-resource mark. *)
Theorem put_effects `{Tfresource} conn s :
  let name := attr (data s) "app_monitor_name" in
  let id := if rd_IsNewResource (data s) then name else rd_Id (data s) in
  exists diags s',
    resourceMetricsDestinationPut conn s = Done diags s'
    /\ sent s' = sent s ++ SentPut (putRequest (data s))
                   :: match PutRumMetricsDestination conn (putRequest (data s)) with
                      | Some _ => []
                      | None => [SentList {| list_AppMonitorName := Some id |}]
                      end
    /\ rd_IsNewResource (data s') = rd_IsNewResource (data s)
    /\ (length diags <= 1)%nat
    /\ (diags <> [] -> HasError diags = true).
Proof.
  intros name id.
  destruct (PutRumMetricsDestination conn (putRequest (data s))) as [e|] eqn:Hput.
  - rewrite resourceMetricsDestinationPut_run. rewrite Hput.
    eexists _, _. split; [reflexivity|]. split; [reflexivity|].
    split; [reflexivity|]. split; [cbn; lia|]. intros _. reflexivity.
  - rewrite (resourceMetricsDestinationPut_read_back conn s Hput).
    fold name id.
    set (input := {| list_AppMonitorName := Some id |}).
    assert (Hnew : rd_IsNewResource (if rd_IsNewResource (data s)
                                     then setId name (data s) else data s)
                   = rd_IsNewResource (data s)).
    { destruct (rd_IsNewResource (data s)) eqn:HisNew; cbn [setId rd_IsNewResource];
        exact HisNew. }
    destruct (lookup_record_or_error input
                (ListRumMetricsDestinations conn input).1
                (ListRumMetricsDestinations conn input).2) as [[v ->]|[e ->]].
    + rewrite andb_false_r. eexists _, _. split; [reflexivity|]. cbn [data sent].
      split; [reflexivity|].
      split; [rewrite (proj1 (proj2 (populated_attrs id v _))); exact Hnew|].
      split; [cbn; lia|]. intros Hdiags. contradiction.
    + destruct (negb (rd_IsNewResource (data s)) && NotFound (Some e)).
      * eexists _, _. split; [reflexivity|]. cbn [data sent].
        split; [reflexivity|]. split; [exact Hnew|].
        split; [cbn; lia|]. intros Hdiags. contradiction.
      * eexists _, _. split; [reflexivity|]. cbn [data sent].
        split; [reflexivity|]. split; [exact Hnew|].
        split; [cbn; lia|]. intros _. reflexivity.
Qed.

(** ** Delete: the request and the report *)

(** The delete request always carries the identifier of the resource,
    not the monitor name of the configuration, and the configured
    destination; it carries the destination ARN exactly when a non-empty
    one is configured, and then that value.  It is the only request Delete
    sends. *)
Theorem delete_request_fields conn s :
  exists input diags s',
    resourceMetricsDestinationDelete conn s = Done diags s'
    /\ sent s' = sent s ++ [SentDelete input]
    /\ del_AppMonitorName input = Some (rd_Id (data s))
    /\ del_Destination input = Some (attr (data s) AttrDestination)
    /\ (forall v, del_DestinationArn input = Some v
                  <-> attr (data s) AttrDestinationARN = v /\ v <> "").
Proof.
  exists (deleteRequest (data s)).
  rewrite resourceMetricsDestinationDelete_run.
  eexists _, _. split; [reflexivity|]. split; [reflexivity|].
  split; [reflexivity|]. split; [reflexivity|].
  intros v. apply optional_Some.
Qed.

(** Delete reports an error exactly when the remote call failed with
    something other than the resource-not-found code; it reports nothing
    at all when the call succeeded or the resource was already gone, and
    never more than one diagnostic. *)
Theorem delete_reports_error_iff conn s :
  exists diags s',
    resourceMetricsDestinationDelete conn s = Done diags s'
    /\ (length diags <= 1)%nat
    /\ (HasError diags = true
        <-> exists e,
              DeleteRumMetricsDestination conn (deleteRequest (data s)) = Some e
              /\ ErrCodeEquals (Some e) ErrCodeResourceNotFoundException = false)
    /\ (HasError diags = false -> diags = []).
Proof.
  rewrite resourceMetricsDestinationDelete_run.
  eexists _, _. split; [reflexivity|].
  destruct (DeleteRumMetricsDestination conn (deleteRequest (data s))) as [e|].
  - destruct (ErrCodeEquals (Some e) ErrCodeResourceNotFoundException) eqn:Hcode.
    + split; [cbn; lia|]. split; [|reflexivity]. split.
      * discriminate.
      * intros (e' & [= <-] & Hother). congruence.
    + split; [cbn; lia|]. split; [|discriminate]. split; eauto.
  - cbn [ErrCodeEquals]. split; [cbn; lia|]. split; [|reflexivity]. split.
    + discriminate.
    + intros (e' & Hnone & _). discriminate Hnone.
Qed.

(** ** The page function under any flags *)

(** Whatever flags the pages carry, the page function makes the scan end
    at the first page flagged as the last one: the entries of the pages up
    to that page are accumulated, the later pages are not looked at, and
    the error after the pages is reported only when no page was
    flagged. *)
Theorem collectPage_stops_at_last_page acc events final :
  eachPage collectPage acc events final
  = (acc ++ allEntries (upToLastPage events),
     if existsb snd events then None else final).
Proof.
  revert acc.
  induction events as [|[page lastPage] events IH]; intros acc.
  - cbn. now rewrite app_nil_r.
  - cbn [eachPage upToLastPage existsb snd]. rewrite collectPage_entries.
    destruct lastPage; cbn [negb orb].
    + rewrite allEntries_cons. cbn [allEntries fmap list_fmap concat].
      now rewrite app_nil_r.
    + rewrite IH, allEntries_cons, app_assoc. reflexivity.
Qed.

(** ** Read, then the next request *)

Lemma optional_default (field : option string) :
  field <> Some "" -> optional (default "" field) = field.
Proof.
  intros Hfield. unfold optional. destruct field as [v|]; simpl.
  - rewrite bool_decide_eq_false_2; [reflexivity|].
    intros Hv. apply Hfield. now rewrite Hv.
  - reflexivity.
Qed.

(** Upsert always returns, and the first request it sends is the put
    request of the configuration. *)
Lemma put_request_sent `{Tfresource} conn s :
  exists diags s' rest,
    resourceMetricsDestinationPut conn s = Done diags s'
    /\ sent s' = sent s ++ SentPut (putRequest (data s)) :: rest.
Proof.
  rewrite resourceMetricsDestinationPut_run.
  destruct (PutRumMetricsDestination conn (putRequest (data s))) as [e|].
  - eexists _, _, []. split; reflexivity.
  - match goal with
    | |- context [resourceMetricsDestinationRead conn ?s0] =>
        destruct (resourceMetricsDestinationRead_total conn s0)
          as (diags & s' & -> & Hsent & _)
    end.
    eexists _, _, _. split; [reflexivity|].
    rewrite Hsent. cbn [sent]. now rewrite <- app_assoc.
Qed.

(** What Read wrote is what the next put sends: after a Read that found a
    record whose ARN fields are nil or non-empty, Upsert, against any
    service, sends a put request that carries the identifier as the
    monitor name, the destination of the record, and the two ARNs exactly
    as the record holds them. *)
Theorem put_after_read_sends_record `{Tfresource} conn conn' s dest s1 :
  FindMetricsDestinationByName conn (rd_Id (data s)) s = Done (Some dest, None) s1 ->
  DestinationArn dest <> Some "" ->
  IamRoleArn dest <> Some "" ->
  exists s' diags s'' rest,
    resourceMetricsDestinationRead conn s = Done [] s'
    /\ resourceMetricsDestinationPut conn' s' = Done diags s''
    /\ sent s'' = sent s' ++
         SentPut {| put_AppMonitorName := Some (rd_Id (data s));
                    put_Destination := Some (default "" (Destination dest));
                    put_DestinationArn := DestinationArn dest;
                    put_IamRoleArn := IamRoleArn dest |} :: rest.
Proof.
  intros Hfind Harn Hrole.
  rewrite FindMetricsDestinationByName_run in Hfind.
  injection Hfind as Hlookup _.
  pose proof (resourceMetricsDestinationRead_run conn s) as Hread.
  cbv zeta in Hread. rewrite Hlookup in Hread.
  cbn [NotFound] in Hread. rewrite andb_false_r in Hread.
  eexists. 
  destruct (put_request_sent conn' {| data := populated (rd_Id (data s)) dest (data s);
                                      sent := sent (sending (SentList {| list_AppMonitorName :=
                                                Some (rd_Id (data s)) |}) s) |})
    as (diags & s'' & rest & Hput & Hsent).
  exists diags, s'', rest. split; [exact Hread|]. split; [exact Hput|].
  rewrite Hsent. cbn [data sent]. repeat f_equal.
  destruct (populated_attrs (rd_Id (data s)) dest (data s))
    as (_ & _ & Hname & Hdest & Harn' & Hrole').
  unfold putRequest. rewrite Hname, Hdest, Harn', Hrole'.
  now rewrite !optional_default.
Qed.

Lemma put_after_read_sends_record_witness :
  exists s' diags s'' rest,
    resourceMetricsDestinationRead (H := strictTfresource)
      (service [pageOf [Some evidently]] None None None) app1Imported = Done [] s'
    /\ resourceMetricsDestinationPut (H := strictTfresource)
         (service [] None (Some throttlingException) None) s' = Done diags s''
    /\ sent s'' = sent s' ++
         SentPut {| put_AppMonitorName := Some "app1";
                    put_Destination := Some "Evidently";
                    put_DestinationArn :=
                      Some "arn:aws:evidently:us-east-1:123456789012:project/p";
                    put_IamRoleArn := Some "arn:aws:iam::123456789012:role/r" |} :: rest.
Proof.
  apply (put_after_read_sends_record (H := strictTfresource)
           (service [pageOf [Some evidently]] None None None)
           (service [] None (Some throttlingException) None)
           app1Imported evidently _ eq_refl); discriminate.
Defined.

(** What Read wrote is what a delete asks for: after a Read that found a
    record whose destination ARN is nil or non-empty, Delete, against any
    service, sends one delete request that carries the identifier, the
    destination of the record and its destination ARN as the record holds
    it. *)
Theorem delete_after_read_sends_record `{Tfresource} conn conn' s dest s1 :
  FindMetricsDestinationByName conn (rd_Id (data s)) s = Done (Some dest, None) s1 ->
  DestinationArn dest <> Some "" ->
  exists s' diags s'',
    resourceMetricsDestinationRead conn s = Done [] s'
    /\ resourceMetricsDestinationDelete conn' s' = Done diags s''
    /\ data s'' = data s'
    /\ sent s'' = sent s' ++
         [SentDelete {| del_AppMonitorName := Some (rd_Id (data s));
                        del_Destination := Some (default "" (Destination dest));
                        del_DestinationArn := DestinationArn dest |}].
Proof.
  intros Hfind Harn.
  rewrite FindMetricsDestinationByName_run in Hfind.
  injection Hfind as Hlookup _.
  pose proof (resourceMetricsDestinationRead_run conn s) as Hread.
  cbv zeta in Hread. rewrite Hlookup in Hread.
  cbn [NotFound] in Hread. rewrite andb_false_r in Hread.
  eexists _, _, _. split; [exact Hread|].
  rewrite resourceMetricsDestinationDelete_run.
  split; [reflexivity|]. split; [reflexivity|].
  cbn [data sent sending]. repeat f_equal.
  destruct (populated_attrs (rd_Id (data s)) dest (data s))
    as (Hid & _ & _ & Hdest & Harn' & _).
  unfold deleteRequest. rewrite Hid, Hdest, Harn'.
  now rewrite optional_default.
Qed.

Lemma delete_after_read_sends_record_witness :
  exists s' diags s'',
    resourceMetricsDestinationRead (H := strictTfresource)
      (service [pageOf [Some cloudWatch]] None None None) app1Imported = Done [] s'
    /\ resourceMetricsDestinationDelete
         (service [] None None (Some notFoundException)) s' = Done diags s''
    /\ data s'' = data s'
    /\ sent s'' = sent s' ++
         [SentDelete {| del_AppMonitorName := Some "app1";
                        del_Destination := Some "CloudWatch";
                        del_DestinationArn := None |}].
Proof.
  apply (delete_after_read_sends_record (H := strictTfresource)
           (service [pageOf [Some cloudWatch]] None None None)
           (service [] None None (Some notFoundException))
           app1Imported cloudWatch _ eq_refl); discriminate.
Defined.
